(** * elia_chat: the model catalogue, the launch configuration and the
      message-information modal

    A shallow embedding of [elia_chat/config.py] and
    [elia_chat/screens/message_info_modal.py].

    Python values are kept as the code has them: [str] as [string],
    [list] as [list], [dict] and [os.environ] as [gmap string _],
    [int] as [Z], optional keyword arguments as [option].  Code that can
    raise returns a [result]: [inl] carries the exception that propagates,
    [inr] the value. *)

From Stdlib Require QArith_base.
From stdpp Require Import base strings gmap list pretty.

Local Open Scope string_scope.
Local Open Scope Z_scope.
Local Open Scope list_scope.

(** ** Python values and exceptions *)

Module Py.

(** A Python number: an [int], or a finite [float] given by its exact
    rational value (every finite float is a rational). *)
Inductive pynum : Type :=
| PyInt (z : Z)
| PyFloat (q : QArith_base.Q).

(** The exceptions that the two source files can let escape.  A
    [ValidationError] lists its errors, each the field and the kind of
    the error. *)
Inductive exception : Type :=
| ValidationError (errors : list (string * string))
| ValueError (msg : string)
| KeyError (key : string)
| UnboundLocalError (var : string)
| NoMatches (selector : string).

Definition result (A : Type) : Type := (exception + A)%type.

Definition ok {A : Type} (a : A) : result A := inr a.
Definition raise {A : Type} (e : exception) : result A := inl e.

Definition bind {A B : Type} (r : result A) (k : A → result B) : result B :=
  match r with
  | inl e => inl e
  | inr a => k a
  end.

#[export] Instance result_ret : MRet result := @ok.
#[export] Instance result_bind : MBind result := λ A B k r, bind r k.

(** Evaluation of a list display [[e1, e2, ...]]: left to right, the
    first exception propagates. *)
Fixpoint sequence {A : Type} (rs : list (result A)) : result (list A) :=
  match rs with
  | [] => ok []
  | r :: rest =>
      bind r (λ a, bind (sequence rest) (λ l, ok (a :: l)))
  end.

(** [x or <empty string>] on an optional string: [None] and the empty
    string are both falsy. *)
Definition or_empty (s : option string) : string :=
  match s with
  | Some t => if String.eqb t EmptyString then EmptyString else t
  | None => EmptyString
  end.

(** Truth value of a [str]: non-empty. *)
Definition truthy (s : string) : bool := negb (String.eqb s EmptyString).

(** [os.getenv(key, default)] against the process environment. *)
Definition os_getenv (environ : gmap string string) (key dflt : string) : string :=
  default dflt (environ !! key).

(** [d.get(key, default)]. *)
Definition dict_get {V : Type} (d : gmap string V) (key : string) (dflt : V) : V :=
  default dflt (d !! key).

End Py.

Import Py.

(** ** elia_chat/config.py *)

Module Config.

(** pydantic's wrapper types; a value stands for an input that passed the
    wrapper's own validation. *)
Record SecretStr : Type := { secret_value : string }.
Record AnyHttpUrl : Type := { url_text : string }.

(** [class EliaChatModel(BaseModel)].  [temperature] is annotated [int]
    with the default [1.0]; pydantic stores a default without validating
    it, so the stored value is a Python number, not always an [int]. *)
Record EliaChatModel : Type := {
  name : string;
  display_name : option string;
  provider : option string;
  api_key : option SecretStr;
  api_base : option AnyHttpUrl;
  organization : option string;
  description : option string;
  product : option string;
  temperature : pynum;
  max_retries : Z
}.

(** The keyword arguments of [EliaChatModel(...)]: [name] is required,
    every other field has a default. *)
Record EliaChatModelArgs : Type := {
  kw_name : string;
  kw_display_name : option string;
  kw_provider : option string;
  kw_api_key : option SecretStr;
  kw_api_base : option AnyHttpUrl;
  kw_organization : option string;
  kw_description : option string;
  kw_product : option string;
  kw_temperature : option pynum;
  kw_max_retries : option pynum
}.

(** A call that passes [name] only. *)
Definition only_name (n : string) : EliaChatModelArgs :=
  {| kw_name := n; kw_display_name := None; kw_provider := None;
     kw_api_key := None; kw_api_base := None; kw_organization := None;
     kw_description := None; kw_product := None;
     kw_temperature := None; kw_max_retries := None |}.

(** The bounds of pydantic's conversion of a float to an [int]: the
    float has to lie strictly between them. *)
Definition int_lower : Z := -9223372036854775808.
Definition int_upper : Z := 9223372036854775808.

(** pydantic's validation of a number against the annotation [int]
    (lax mode).  An [int] is taken as it is, whatever its size.  A float
    with a fractional part is refused ([int_from_float]); a whole float
    is converted when it lies strictly between the two bounds and is
    refused otherwise ([int_parsing_size]).  [inl] carries the kind of
    the error. *)
Definition validate_int (v : pynum) : string + Z :=
  match v with
  | PyInt z => inr z
  | PyFloat q =>
      let n := QArith_base.Qnum q in
      let d := Z.pos (QArith_base.Qden q) in
      if negb (Z.eqb (Z.rem n d) 0) then inl "int_from_float"
      else if Z.ltb int_lower (Z.quot n d) && Z.ltb (Z.quot n d) int_upper
           then inr (Z.quot n d)
           else inl "int_parsing_size"
  end.

(** [Field(default=1.0)] and [Field(default=0)]. *)
Definition temperature_default : pynum := PyFloat (QArith_base.Qmake 1 1).
Definition max_retries_default : Z := 0.

(** One field of the constructor: the default when the keyword is absent,
    the validated value otherwise; a failure is reported with the name of
    the field. *)
Definition int_field {A : Type} (field : string) (dflt : A) (inj : Z → A)
    (arg : option pynum) : list (string * string) + A :=
  match arg with
  | None => inr dflt
  | Some v =>
      match validate_int v with
      | inr z => inr (inj z)
      | inl kind => inl [(field, kind)]
      end
  end.

Definition field_errors {A : Type} (r : list (string * string) + A)
    : list (string * string) :=
  match r with
  | inl errs => errs
  | inr _ => []
  end.

(** [EliaChatModel(...)]: every field is validated, and the failures are
    raised together as one [ValidationError]. *)
Definition EliaChatModel_init (kw : EliaChatModelArgs) : result EliaChatModel :=
  let t := int_field "temperature" temperature_default PyInt (kw_temperature kw) in
  let r := int_field "max_retries" max_retries_default id (kw_max_retries kw) in
  match t, r with
  | inr t', inr r' =>
      ok {| name := kw_name kw;
            display_name := kw_display_name kw;
            provider := kw_provider kw;
            api_key := kw_api_key kw;
            api_base := kw_api_base kw;
            organization := kw_organization kw;
            description := kw_description kw;
            product := kw_product kw;
            temperature := t';
            max_retries := r' |}
  | _, _ => raise (ValidationError (field_errors t ++ field_errors r))
  end.

(** A builtin entry: the five keywords that the catalogue passes. *)
Definition builtin_args (n dn prov prod descr : string) : EliaChatModelArgs :=
  {| kw_name := n; kw_display_name := Some dn; kw_provider := Some prov;
     kw_api_key := None; kw_api_base := None; kw_organization := None;
     kw_description := Some descr; kw_product := Some prod;
     kw_temperature := None; kw_max_retries := None |}.

Definition get_builtin_openai_models (_ : unit) : result (list EliaChatModel) :=
  sequence [
    EliaChatModel_init
      (builtin_args "gpt-3.5-turbo" "GPT-3.5 Turbo" "OpenAI" "ChatGPT"
         "The fastest ChatGPT model, great for most everyday tasks");
    EliaChatModel_init
      (builtin_args "gpt-4-turbo" "GPT-4 Turbo" "OpenAI" "ChatGPT"
         ("The most powerful ChatGPT model, capable of "
          +:+ "complex tasks which require advanced reasoning"))
  ].

Definition get_builtin_anthropic_models (_ : unit) : result (list EliaChatModel) :=
  sequence [
    EliaChatModel_init
      (builtin_args "claude-3-haiku-20240307" "Claude 3 Haiku" "Anthropic" "Claude 3"
         "Fastest and most compact model for near-instant responsiveness");
    EliaChatModel_init
      (builtin_args "claude-3-sonnet-20240229" "Claude 3 Sonnet" "Anthropic" "Claude 3"
         "Ideal balance of intelligence and speed for enterprise workloads");
    EliaChatModel_init
      (builtin_args "claude-3-opus-20240229" "Claude 3 Opus" "Anthropic" "Claude 3"
         "Most powerful model for highly complex tasks")
  ].

Definition get_builtin_models (_ : unit) : result (list EliaChatModel) :=
  o ← get_builtin_openai_models tt;
  a ← get_builtin_anthropic_models tt;
  ok (o ++ a).

(** [class LaunchConfig(BaseModel)]. *)
Record LaunchConfig : Type := {
  default_model : string;
  system_prompt : string;
  models : list EliaChatModel;
  builtin_models : list EliaChatModel
}.

Record ConfigDict : Type := { frozen : bool }.

(** [model_config = ConfigDict(frozen=True)]. *)
Definition model_config : ConfigDict := {| frozen := true |}.

(** The default of [system_prompt].  [os.getenv] stands in the class body,
    so it is evaluated once, when the module is imported: [import_environ]
    is the process environment at that moment. *)
Definition system_prompt_default (import_environ : gmap string string) : string :=
  os_getenv import_environ "ELIA_SYSTEM_PROMPT"
    "You are a helpful assistant named Elia.".

(** The keyword arguments of [LaunchConfig(...)].  [builtin_models] is
    declared with [init=False]; pydantic documents that option as applying
    to dataclasses only, and a [BaseModel] validates the keyword like that
    of any other field, so it is among the arguments. *)
Record LaunchConfigArgs : Type := {
  kw_default_model : option string;
  kw_system_prompt : option string;
  kw_models : option (list EliaChatModel);
  kw_builtin_models : option (list EliaChatModel)
}.

Definition no_args : LaunchConfigArgs :=
  {| kw_default_model := None; kw_system_prompt := None;
     kw_models := None; kw_builtin_models := None |}.

(** A call with the three inputs that the class offers to its caller. *)
Definition caller_args (dm sp : option string) (ms : option (list EliaChatModel))
    : LaunchConfigArgs :=
  {| kw_default_model := dm; kw_system_prompt := sp;
     kw_models := ms; kw_builtin_models := None |}.

(** [LaunchConfig(...)]: an absent keyword takes the field's default or
    calls its [default_factory]. *)
Definition LaunchConfig_init (import_environ : gmap string string)
    (kw : LaunchConfigArgs) : result LaunchConfig :=
  let ms := match kw_models kw with Some l => l | None => [] end in
  bm ← match kw_builtin_models kw with
       | Some l => ok l
       | None => get_builtin_models tt
       end;
  ok {| default_model := default "gpt-3.5-turbo" (kw_default_model kw);
        system_prompt :=
          default (system_prompt_default import_environ) (kw_system_prompt kw);
        models := ms;
        builtin_models := bm |}.

(** The [all_models] property. *)
Definition all_models (self : LaunchConfig) : list EliaChatModel :=
  models self ++ builtin_models self.

(** A value assigned to an attribute of a [LaunchConfig]. *)
Inductive attr_value : Type :=
| AStr (s : string)
| AModels (l : list EliaChatModel).

(** A name with a leading underscore (code point 95) is not a field
    name. *)
Definition is_private (attr : string) : bool :=
  match attr with
  | String c _ => Ascii.eqb c (Ascii.ascii_of_nat 95)
  | EmptyString => false
  end.

(** [self.<field> = v] on a [LaunchConfig] ([BaseModel.__setattr__]).
    An attribute with a leading underscore is stored beside the fields,
    which stay as they are.  For every other name the frozen check comes
    first; without it the attribute is stored when the field exists. *)
Definition LaunchConfig_setattr (self : LaunchConfig) (field : string)
    (v : attr_value) : result LaunchConfig :=
  if is_private field then ok self
  else if frozen model_config then
    raise (ValidationError [(field, "frozen_instance")])
  else
    match field, v with
    | "default_model", AStr s =>
        ok {| default_model := s; system_prompt := system_prompt self;
              models := models self; builtin_models := builtin_models self |}
    | "system_prompt", AStr s =>
        ok {| default_model := default_model self; system_prompt := s;
              models := models self; builtin_models := builtin_models self |}
    | "models", AModels l =>
        ok {| default_model := default_model self;
              system_prompt := system_prompt self;
              models := l; builtin_models := builtin_models self |}
    | "builtin_models", AModels l =>
        ok {| default_model := default_model self;
              system_prompt := system_prompt self;
              models := models self; builtin_models := l |}
    | _, _ => raise (ValueError field)
    end.

(** The five builtin entries, as values. *)
Definition builtin (n dn prov prod descr : string) : EliaChatModel :=
  {| name := n; display_name := Some dn; provider := Some prov;
     api_key := None; api_base := None; organization := None;
     description := Some descr; product := Some prod;
     temperature := temperature_default; max_retries := 0 |}.

Definition gpt_35_turbo : EliaChatModel :=
  builtin "gpt-3.5-turbo" "GPT-3.5 Turbo" "OpenAI" "ChatGPT"
    "The fastest ChatGPT model, great for most everyday tasks".
Definition gpt_4_turbo : EliaChatModel :=
  builtin "gpt-4-turbo" "GPT-4 Turbo" "OpenAI" "ChatGPT"
    "The most powerful ChatGPT model, capable of complex tasks which require advanced reasoning".
Definition claude_3_haiku : EliaChatModel :=
  builtin "claude-3-haiku-20240307" "Claude 3 Haiku" "Anthropic" "Claude 3"
    "Fastest and most compact model for near-instant responsiveness".
Definition claude_3_sonnet : EliaChatModel :=
  builtin "claude-3-sonnet-20240229" "Claude 3 Sonnet" "Anthropic" "Claude 3"
    "Ideal balance of intelligence and speed for enterprise workloads".
Definition claude_3_opus : EliaChatModel :=
  builtin "claude-3-opus-20240229" "Claude 3 Opus" "Anthropic" "Claude 3"
    "Most powerful model for highly complex tasks".

Definition openai_catalogue : list EliaChatModel := [gpt_35_turbo; gpt_4_turbo].
Definition anthropic_catalogue : list EliaChatModel :=
  [claude_3_haiku; claude_3_sonnet; claude_3_opus].
Definition builtin_catalogue : list EliaChatModel :=
  openai_catalogue ++ anthropic_catalogue.

(** The models of [l] that carry the name [n]. *)
Definition named (n : string) (l : list EliaChatModel) : list EliaChatModel :=
  filter (λ m, name m = n) l.

(** Keyword arguments of [EliaChatModel(...)] with the two numeric ones
    replaced. *)
Definition with_numbers (kw : EliaChatModelArgs) (t r : option pynum)
    : EliaChatModelArgs :=
  {| kw_name := kw_name kw; kw_display_name := kw_display_name kw;
     kw_provider := kw_provider kw; kw_api_key := kw_api_key kw;
     kw_api_base := kw_api_base kw; kw_organization := kw_organization kw;
     kw_description := kw_description kw; kw_product := kw_product kw;
     kw_temperature := t; kw_max_retries := r |}.

(** The model that [EliaChatModel(...)] stores for accepted numbers. *)
Definition stored (kw : EliaChatModelArgs) (t : pynum) (r : Z) : EliaChatModel :=
  {| name := kw_name kw; display_name := kw_display_name kw;
     provider := kw_provider kw; api_key := kw_api_key kw;
     api_base := kw_api_base kw; organization := kw_organization kw;
     description := kw_description kw; product := kw_product kw;
     temperature := t; max_retries := r |}.

End Config.

(** ** elia_chat/screens/message_info_modal.py *)

Module MessageInfoModal.

(** langchain's [BaseMessage], by the two attributes that the modal
    reads.  [content] is [None] when the message has none;
    [additional_kwargs] maps a metadata key to its (numeric) value. *)
Record BaseMessage : Type := {
  content : option string;
  additional_kwargs : gmap string pynum
}.

(** tiktoken's [Encoding]: a named vocabulary and its [encode]. *)
Record Encoding : Type := {
  encoding_name : string;
  encode : string → list Z
}.

(** The collaborators of the modal, as parameters.
    [encoding_for_model] is [tiktoken.encoding_for_model]: [None] is the
    lookup failure, raised as a [KeyError].
    [format_timestamp] is [elia_chat.time_display.format_timestamp], whose
    module is not among the sources: a function from a numeric value to
    a string. *)
Class Collaborators : Type := {
  encoding_for_model : string → option Encoding;
  format_timestamp : pynum → string
}.

(** A [Tab] of the tab strip. *)
Record Tab : Type := {
  tab_label : string;
  tab_id : option string
}.

Inductive ContainerKind : Type := Vertical | VerticalScroll | Horizontal.

(** The widgets that [compose] builds.  [TokenAnalysis] comes from
    [elia_chat.widgets.token_analysis] and is kept as the node that holds
    its constructor arguments. *)
#[warnings="-register-all"]
Inductive Widget : Type :=
| Static (text : string) (id : string)
| Tabs (tabs : list Tab)
| TokenAnalysis (tokens : list Z) (encoder : Encoding) (id : string)
| ContentSwitcher (current : option string) (children : list Widget)
| Container (kind : ContainerKind) (id : string) (children : list Widget).

(** [class MessageInfo(ModalScreen)]: the attributes set by [__init__]. *)
Record MessageInfo : Type := {
  message : BaseMessage;
  model_name : string;
  screen_name : option string;
  screen_id : option string;
  screen_classes : option string
}.

(** [MessageInfo.__init__]: stores its arguments, nothing else. *)
Definition MessageInfo_init (message : BaseMessage) (model_name : string)
    (name id classes : option string) : MessageInfo :=
  {| message := message; model_name := model_name;
     screen_name := name; screen_id := id; screen_classes := classes |}.

(** Reading a local variable: unbound when no assignment was executed. *)
Definition read_local {A : Type} (var : string) (v : option A) : result A :=
  match v with
  | Some a => ok a
  | None => raise (UnboundLocalError var)
  end.

(** [MessageInfo.compose].  The generator hands the framework one
    top-level widget, the outermost container; an exception raised on the
    way propagates and no widget is handed over. *)
Definition compose `{Collaborators} (self : MessageInfo) : result (list Widget) :=
  let markdown_content := or_empty (content (message self)) in
  encoder ← match encoding_for_model (model_name self) with
            | Some e => ok e
            | None => raise (KeyError (model_name self))
            end;
  let tokens := encode encoder markdown_content in
  let header :=
    Container Horizontal "message-info-header"
      [Tabs [ {| tab_label := "Markdown"; tab_id := Some "markdown-content" |};
              {| tab_label := "Tokens"; tab_id := Some "tokens" |};
              {| tab_label := "Metadata"; tab_id := Some "metadata" |} ]] in
  let body :=
    Container VerticalScroll "inner-container"
      [ContentSwitcher (Some "markdown-content")
         [Static markdown_content "markdown-content";
          TokenAnalysis tokens encoder "tokens";
          Static "Metadata" "metadata"]] in
  let token_count : option nat :=
    if truthy (model_name self) then Some (length tokens) else None in
  let timestamp := dict_get (additional_kwargs (message self)) "timestamp" (PyInt 0) in
  let timestamp_string := format_timestamp timestamp in
  let sent := Static ("Message sent at " +:+ timestamp_string) "timestamp" in
  count ← read_local "token_count" token_count;
  let counted := Static (pretty count +:+ " tokens") "token-count" in
  ok [Container Vertical "outermost-container"
        [header; body; Container Horizontal "message-info-footer" [sent; counted]]].

(** The widgets of a tree in document order: a widget, then its
    children, left to right. *)
Fixpoint flatten (w : Widget) : list Widget :=
  w :: match w with
       | ContentSwitcher _ ws | Container _ _ ws => flat_map flatten ws
       | _ => []
       end.

(** [query_one]: the first widget of the tree, in document order, that
    the selector [sel] accepts. *)
Definition query_one {A : Type} (sel : Widget → option A) (dom : list Widget)
    : option A :=
  head (omap sel (flat_map flatten dom)).

Definition is_switcher (w : Widget) : option (option string) :=
  match w with
  | ContentSwitcher cur _ => Some cur
  | _ => None
  end.

Definition is_static (i : string) (w : Widget) : option string :=
  match w with
  | Static text j => if String.eqb i j then Some text else None
  | _ => None
  end.

Definition is_tabs (w : Widget) : option (list Tab) :=
  match w with
  | Tabs ts => Some ts
  | _ => None
  end.

Definition is_token_analysis (w : Widget) : option (list Z) :=
  match w with
  | TokenAnalysis tokens _ _ => Some tokens
  | _ => None
  end.

(** Assignment to [.current] of the first content switcher of the tree;
    [None] when the tree has none. *)
Fixpoint assign_current (v : option string) (w : Widget) : option Widget :=
  match w with
  | ContentSwitcher _ ch => Some (ContentSwitcher v ch)
  | Container k i ws =>
      option_map (Container k i)
        ((fix go (l : list Widget) : option (list Widget) :=
            match l with
            | [] => None
            | x :: rest =>
                match assign_current v x with
                | Some x' => Some (x' :: rest)
                | None => option_map (cons x) (go rest)
                end
            end) ws)
  | _ => None
  end.

Fixpoint assign_current_in (v : option string) (dom : list Widget)
    : option (list Widget) :=
  match dom with
  | [] => None
  | w :: rest =>
      match assign_current v w with
      | Some w' => Some (w' :: rest)
      | None => option_map (cons w) (assign_current_in v rest)
      end
  end.

(** The view on display: [query_one(ContentSwitcher).current]. *)
Definition current_view (dom : list Widget) : result (option string) :=
  match query_one is_switcher dom with
  | Some c => ok c
  | None => raise (NoMatches "ContentSwitcher")
  end.

(** The [Tabs.TabActivated] message. *)
Record TabActivated : Type := { tab : Tab }.

(** The [id] that a widget was given; the tab strip and the content
    switcher are built without one. *)
Definition widget_id (w : Widget) : option string :=
  match w with
  | Static _ i | TokenAnalysis _ _ i | Container _ i _ => Some i
  | Tabs _ | ContentSwitcher _ _ => None
  end.

Definition is_switcher_children (w : Widget) : option (list Widget) :=
  match w with
  | ContentSwitcher _ ws => Some ws
  | _ => None
  end.

(** A content switcher, by the view it shows and its children. *)
Definition is_switcher_node (w : Widget)
    : option (option string * list Widget) :=
  match w with
  | ContentSwitcher cur ws => Some (cur, ws)
  | _ => None
  end.

(** [get_child_by_id]: whether one of the children carries the id. *)
Definition has_child (i : string) (views : list Widget) : bool :=
  existsb (λ w, bool_decide (widget_id w = Some i)) views.

(** The watcher of [ContentSwitcher.current]: it puts the child named by
    the new value on display and raises [NoMatches] when no child has
    that id; a falsy value puts no child on display. *)
Definition watch_current (views : list Widget) (new : option string)
    : result unit :=
  match new with
  | Some i =>
      if truthy i && negb (has_child i views)
      then raise (NoMatches ("#" +:+ i))
      else ok ()
  | None => ok ()
  end.

(** [MessageInfo.tab_activated], on the widget tree of the mounted
    modal: [query_one] finds the content switcher, and the assignment to
    its reactive [current] calls the watcher when the value changes. *)
Definition tab_activated (dom : list Widget) (event : TabActivated)
    : result (list Widget) :=
  let new := tab_id (tab event) in
  match query_one is_switcher_node dom with
  | None => raise (NoMatches "ContentSwitcher")
  | Some (cur, views) =>
      _ ← (if bool_decide (new = cur) then ok () else watch_current views new);
      match assign_current_in new dom with
      | Some dom' => ok dom'
      | None => raise (NoMatches "ContentSwitcher")
      end
  end.

(** What reaches the modal: a tab activation, or a key press.
    [BINDINGS] binds [escape] to [app.pop_screen]. *)
Inductive Event : Type :=
| OnTabActivated (event : TabActivated)
| OnKey (key : string).

Inductive Reaction : Type :=
| Shown (dom : list Widget)
| PopScreen.

Definition dispatch (dom : list Widget) (ev : Event) : result Reaction :=
  match ev with
  | OnTabActivated event => dom' ← tab_activated dom event; ok (Shown dom')
  | OnKey key =>
      if String.eqb key "escape" then ok PopScreen else ok (Shown dom)
  end.

(** A run of tab activations, one handler call after the other. *)
Fixpoint activate_all (dom : list Widget) (events : list TabActivated)
    : result (list Widget) :=
  match events with
  | [] => ok dom
  | event :: rest => dom' ← tab_activated dom event; activate_all dom' rest
  end.

Definition activation (i : string) : TabActivated :=
  {| tab := {| tab_label := i; tab_id := Some i |} |}.

(** The identifiers of the three tabs. *)
Definition tab_ids : list string := ["markdown-content"; "tokens"; "metadata"].

(** The event carries one of the three tab identifiers. *)
Definition names_tab (event : TabActivated) : Prop :=
  ∃ i, i ∈ tab_ids ∧ tab_id (tab event) = Some i.

(** The text of the [Static] with identifier [i]. *)
Definition static_text (i : string) (dom : list Widget) : option string :=
  query_one (is_static i) dom.

(** The message [self] was built for, with [timestamp] set to [v]. *)
Definition with_timestamp (self : MessageInfo) (v : pynum) : MessageInfo :=
  {| message :=
       {| content := content (message self);
          additional_kwargs :=
            <["timestamp" := v]> (additional_kwargs (message self)) |};
     model_name := model_name self;
     screen_name := screen_name self;
     screen_id := screen_id self;
     screen_classes := screen_classes self |}.

(** The widget tree of a composed modal, by its variable parts: the
    content, its tokens, the encoder, the two footer texts and the view
    that the content switcher shows. *)
Definition modal_dom (markdown : string) (tokens : list Z) (enc : Encoding)
    (sent counted : string) (cur : option string) : list Widget :=
  [Container Vertical "outermost-container"
     [Container Horizontal "message-info-header"
        [Tabs [ {| tab_label := "Markdown"; tab_id := Some "markdown-content" |};
                {| tab_label := "Tokens"; tab_id := Some "tokens" |};
                {| tab_label := "Metadata"; tab_id := Some "metadata" |} ]];
      Container VerticalScroll "inner-container"
        [ContentSwitcher cur
           [Static markdown "markdown-content";
            TokenAnalysis tokens enc "tokens";
            Static "Metadata" "metadata"]];
      Container Horizontal "message-info-footer"
        [Static sent "timestamp"; Static counted "token-count"]]].

End MessageInfoModal.

(** ** Test doubles for the collaborators *)

Module Fixture.
Import MessageInfoModal.

(** An encoder with one token per character, its code point. *)
Definition code_points : Encoding :=
  {| encoding_name := "code-points";
     encode := λ s, (λ a, Z.of_nat (Ascii.nat_of_ascii a))
                      <$> String.list_ascii_of_string s |}.

(** A tokenizer that knows [gpt-3.5-turbo] only, and a formatter that
    prints the number. *)
Definition collaborators : Collaborators :=
  {| encoding_for_model :=
       λ n, if String.eqb n "gpt-3.5-turbo" then Some code_points else None;
     format_timestamp :=
       λ v, match v with
            | PyInt z => pretty z
            | PyFloat q =>
                pretty (QArith_base.Qnum q) +:+ "/"
                +:+ pretty (Z.pos (QArith_base.Qden q))
            end |}.

Definition bare (c : option string) : BaseMessage :=
  {| content := c; additional_kwargs := ∅ |}.

Definition modal (c : option string) (model_name : string) : MessageInfo :=
  MessageInfo_init (bare c) model_name None None None.

End Fixture.

(** ** Observations used by the further properties *)

Module Observe.
Import Config MessageInfoModal.

(** The float [q] has the integer value [z]. *)
Definition whole (q : QArith_base.Q) (z : Z) : Prop :=
  QArith_base.Qnum q = z * Z.pos (QArith_base.Qden q).

(** A selector that accepts no container and no content switcher. *)
Definition leaf_selector {A : Type} (sel : Widget → option A) : Prop :=
  (∀ cur ws, sel (ContentSwitcher cur ws) = None)
  ∧ (∀ k i ws, sel (Container k i ws) = None).

(** The content switchers of [after] are those of [before], but for the
    first, which shows [v]. *)
Definition first_switcher_set (v : option string) (before after : list Widget)
    : Prop :=
  ∃ cur rest, omap is_switcher before = cur :: rest
              ∧ omap is_switcher after = v :: rest.

(** The same, with the children of each content switcher: they stay. *)
Definition first_node_set (v : option string) (before after : list Widget)
    : Prop :=
  ∃ cur views rest,
    omap is_switcher_node before = (cur, views) :: rest
    ∧ omap is_switcher_node after = (v, views) :: rest.

(** A configuration file entry of the user's. *)
Definition local_model : EliaChatModel :=
  stored (only_name "local-llama") temperature_default 0.

End Observe.

Import Config.

(** * Properties of the model catalogue and the launch configuration *)

Lemma get_builtin_openai_models_eq u :
  get_builtin_openai_models u = inr openai_catalogue.
Proof. reflexivity. Qed.

Lemma get_builtin_anthropic_models_eq u :
  get_builtin_anthropic_models u = inr anthropic_catalogue.
Proof. reflexivity. Qed.

Lemma get_builtin_models_eq u : get_builtin_models u = inr builtin_catalogue.
Proof. reflexivity. Qed.

Lemma builtin_catalogue_length : length builtin_catalogue = 5%nat.
Proof. reflexivity. Qed.

(** What the constructor returns: each keyword or its default. *)
Lemma LaunchConfig_init_eq environ kw :
  LaunchConfig_init environ kw =
  inr {| default_model := default "gpt-3.5-turbo" (kw_default_model kw);
         system_prompt :=
           default (system_prompt_default environ) (kw_system_prompt kw);
         models := default [] (kw_models kw);
         builtin_models := default builtin_catalogue (kw_builtin_models kw) |}.
Proof.
  unfold LaunchConfig_init.
  destruct (kw_builtin_models kw) as [bm|], (kw_models kw) as [ms|]; reflexivity.
Qed.

Lemma all_models_concat cfg : all_models cfg = models cfg ++ builtin_models cfg.
Proof. reflexivity. Qed.

Lemma all_models_take cfg :
  take (length (models cfg)) (all_models cfg) = models cfg.
Proof. unfold all_models. by rewrite take_app_length. Qed.

Lemma all_models_drop cfg :
  drop (length (models cfg)) (all_models cfg) = builtin_models cfg.
Proof. unfold all_models. by rewrite drop_app_length. Qed.

Lemma all_models_named n cfg :
  named n (all_models cfg) = named n (models cfg) ++ named n (builtin_models cfg).
Proof. unfold named, all_models. apply filter_app. Qed.

(** X6. [all_models] is the user's [models] followed by [builtin_models],
    each in its own order, for every [LaunchConfig]; nothing is dropped
    for sharing a name.  For a configuration built without the
    [builtin_models] keyword, from the caller's [default_model],
    [system_prompt] and [models] (a list of length [n]), [all_models] has
    length [n + 5] and starts with that list; without [models] it is the
    builtin list, of length 5, the two OpenAI entries before the three
    Anthropic ones. *)
Theorem all_models_spec :
  (∀ cfg : LaunchConfig,
     all_models cfg = models cfg ++ builtin_models cfg
     ∧ take (length (models cfg)) (all_models cfg) = models cfg
     ∧ drop (length (models cfg)) (all_models cfg) = builtin_models cfg
     ∧ ∀ n, length (named n (all_models cfg))
            = (length (named n (models cfg))
               + length (named n (builtin_models cfg)))%nat)
  ∧ (∀ environ dm sp (ms : list EliaChatModel),
       ∃ cfg, LaunchConfig_init environ (caller_args dm sp (Some ms)) = inr cfg
              ∧ models cfg = ms
              ∧ all_models cfg = ms ++ builtin_catalogue
              ∧ length (all_models cfg) = (length ms + 5)%nat
              ∧ take (length ms) (all_models cfg) = ms)
  ∧ (∀ environ dm sp,
       ∃ cfg, LaunchConfig_init environ (caller_args dm sp None) = inr cfg
              ∧ models cfg = []
              ∧ all_models cfg = builtin_models cfg
              ∧ all_models cfg = openai_catalogue ++ anthropic_catalogue
              ∧ length (all_models cfg) = 5%nat
              ∧ length openai_catalogue = 2%nat
              ∧ length anthropic_catalogue = 3%nat).
Proof.
  split; [|split].
  - intros cfg. split; [apply all_models_concat|].
    split; [apply all_models_take|]. split; [apply all_models_drop|].
    intros n. by rewrite all_models_named, length_app.
  - intros environ dm sp ms. eexists. split; [apply LaunchConfig_init_eq|].
    split; [done|]. split; [done|]. unfold all_models; simpl. split.
    + by rewrite length_app.
    + apply take_app_length.
  - intros environ dm sp. eexists. split; [apply LaunchConfig_init_eq|].
    repeat split.
Qed.

(** C1. [all_models] is meant to be the user's models followed by the
    five builtin entries.  With the [builtin_models] keyword passed it is
    not: [LaunchConfig(models=[m], builtin_models=[])] is built, its
    [builtin_models] is empty, and its [all_models] is the one user
    model, of length 1 and not 1 + 5. *)
Theorem all_models_without_builtins :
  ∀ environ,
    ∃ cfg, LaunchConfig_init environ
             {| kw_default_model := None; kw_system_prompt := None;
                kw_models := Some [Observe.local_model];
                kw_builtin_models := Some [] |} = inr cfg
           ∧ models cfg = [Observe.local_model]
           ∧ builtin_models cfg = []
           ∧ all_models cfg = [Observe.local_model]
           ∧ length (all_models cfg) = 1%nat
           ∧ length (all_models cfg) ≠ (length (models cfg) + 5)%nat.
Proof.
  intros environ. eexists. split; [apply LaunchConfig_init_eq|].
  repeat split. simpl. lia.
Qed.

(** C4. The catalogue functions take no input and read no state: each
    returns one fixed list, so any two calls agree.  The OpenAI list is
    the two models [gpt-3.5-turbo], [gpt-4-turbo]; the Anthropic list the
    three models [claude-3-haiku-20240307], [claude-3-sonnet-20240229],
    [claude-3-opus-20240229]; [get_builtin_models] is the first list
    followed by the second. *)
Theorem builtin_catalogue_spec :
  (∀ u v, get_builtin_openai_models u = get_builtin_openai_models v
          ∧ get_builtin_anthropic_models u = get_builtin_anthropic_models v
          ∧ get_builtin_models u = get_builtin_models v)
  ∧ (∃ o, get_builtin_openai_models () = inr o
          ∧ name <$> o = ["gpt-3.5-turbo"; "gpt-4-turbo"]
          ∧ ∃ a, get_builtin_anthropic_models () = inr a
                 ∧ name <$> a = ["claude-3-haiku-20240307";
                                 "claude-3-sonnet-20240229";
                                 "claude-3-opus-20240229"]
                 ∧ get_builtin_models () = inr (o ++ a)).
Proof.
  split.
  - intros [] []. done.
  - exists openai_catalogue. split; [done|]. split; [done|].
    exists anthropic_catalogue. done.
Qed.

(** Assignment to a field of a [LaunchConfig] is refused, and no
    assignment changes a field. *)
Lemma LaunchConfig_setattr_frozen cfg field v :
  (is_private field = false →
   LaunchConfig_setattr cfg field v
   = inl (ValidationError [(field, "frozen_instance")]))
  ∧ (∀ cfg', LaunchConfig_setattr cfg field v = inr cfg' → cfg' = cfg).
Proof.
  unfold LaunchConfig_setattr. destruct (is_private field).
  - split; [discriminate|]. by intros cfg' [= <-].
  - split; [reflexivity|]. intros cfg'. discriminate.
Qed.

(** Left to its default factory, [builtin_models] is the builtin list. *)
Lemma builtin_models_from_factory environ dm sp ms :
  ∃ cfg, LaunchConfig_init environ (caller_args dm sp ms) = inr cfg
         ∧ builtin_models cfg = builtin_catalogue.
Proof. eexists. split; [apply LaunchConfig_init_eq|]. done. Qed.

(** C5. [builtin_models] is meant to be out of the caller's reach; the
    constructor takes the keyword all the same: [LaunchConfig(builtin_models=[])]
    is built, its [builtin_models] is the empty list and not the five
    builtin entries, and its [all_models] is empty. *)
Theorem builtin_models_keyword_accepted :
  ∀ environ,
    ∃ cfg, LaunchConfig_init environ
             {| kw_default_model := None; kw_system_prompt := None;
                kw_models := None; kw_builtin_models := Some [] |} = inr cfg
           ∧ builtin_models cfg = []
           ∧ builtin_models cfg ≠ builtin_catalogue
           ∧ all_models cfg = [].
Proof.
  intros environ. eexists. split; [apply LaunchConfig_init_eq|].
  repeat split. discriminate.
Qed.

(** C6. [LaunchConfig()] has [default_model] [gpt-3.5-turbo], no
    [models], and as [system_prompt] the value of [ELIA_SYSTEM_PROMPT] in
    the environment that the module was imported in, or the literal
    sentence when the variable is not set there.  Every call of the
    constructor returns a configuration, whatever name [default_model]
    carries. *)
Theorem launch_config_defaults :
  (∀ environ,
     ∃ cfg, LaunchConfig_init environ no_args = inr cfg
            ∧ default_model cfg = "gpt-3.5-turbo"
            ∧ models cfg = []
            ∧ system_prompt cfg =
                match environ !! "ELIA_SYSTEM_PROMPT" with
                | Some v => v
                | None => "You are a helpful assistant named Elia."
                end)
  ∧ (∀ environ x,
       ∃ cfg, LaunchConfig_init (<["ELIA_SYSTEM_PROMPT" := x]> environ) no_args
                = inr cfg
              ∧ system_prompt cfg = x)
  ∧ (∀ environ,
       ∃ cfg, LaunchConfig_init (delete "ELIA_SYSTEM_PROMPT" environ) no_args
                = inr cfg
              ∧ system_prompt cfg = "You are a helpful assistant named Elia.")
  ∧ (∀ environ kw, ∃ cfg, LaunchConfig_init environ kw = inr cfg)
  ∧ (∀ environ dm sp ms,
       ∃ cfg, LaunchConfig_init environ (caller_args (Some dm) sp ms) = inr cfg
              ∧ default_model cfg = dm).
Proof.
  split; [|split; [|split; [|split]]].
  - intros environ. eexists. split; [apply LaunchConfig_init_eq|].
    split; [done|]. split; [done|]. simpl. unfold system_prompt_default, os_getenv.
    by destruct (environ !! "ELIA_SYSTEM_PROMPT").
  - intros environ x. eexists. split; [apply LaunchConfig_init_eq|].
    simpl. unfold system_prompt_default, os_getenv.
    by rewrite lookup_insert_eq.
  - intros environ. eexists. split; [apply LaunchConfig_init_eq|].
    simpl. unfold system_prompt_default, os_getenv.
    by rewrite lookup_delete_eq.
  - intros environ kw. eexists. apply LaunchConfig_init_eq.
  - intros environ dm sp ms. eexists. split; [apply LaunchConfig_init_eq|]. done.
Qed.

(** The constructor on integer arguments. *)
Lemma EliaChatModel_init_integers kw t r :
  EliaChatModel_init (with_numbers kw (Some (PyInt t)) (Some (PyInt r)))
  = inr (stored kw (PyInt t) r).
Proof. reflexivity. Qed.

(** A temperature with a fractional part, here one half, is refused by
    the [int] annotation of the field. *)
Lemma fractional_temperature_rejected :
  EliaChatModel_init
    (with_numbers (only_name "m") (Some (PyFloat (QArith_base.Qmake 1 2))) None)
  = inl (ValidationError [("temperature", "int_from_float")]).
Proof. reflexivity. Qed.

(** C9, as stated, fails: a model with [max_retries = -1] is built. *)
Lemma negative_max_retries_constructed :
  EliaChatModel_init (with_numbers (only_name "m") None (Some (PyInt (-1))))
  = inr (stored (only_name "m") temperature_default (-1))
  ∧ ¬ (0 ≤ max_retries (stored (only_name "m") temperature_default (-1))).
Proof. split; [reflexivity|]. simpl. lia. Qed.

(** C9, amended. Without the keywords, [temperature] is [1.0] and
    [max_retries] is [0]. No bound is enforced on either field: every
    integer temperature and every integer retry count, the negative ones
    too, is accepted and stored as given. *)
Theorem chat_model_numeric_fields :
  temperature_default = PyFloat (QArith_base.Qmake 1 1)
  ∧ (∀ kw, EliaChatModel_init (with_numbers kw None None)
           = inr (stored kw temperature_default 0))
  ∧ (∀ kw t r,
       ∃ m, EliaChatModel_init (with_numbers kw (Some (PyInt t)) (Some (PyInt r)))
              = inr m
            ∧ temperature m = PyInt t
            ∧ max_retries m = r).
Proof.
  split; [reflexivity|]. split; [reflexivity|].
  intros kw t r. eexists. split; [apply EliaChatModel_init_integers|]. done.
Qed.

Import MessageInfoModal.

(** * Properties of the message-information modal *)

Section Compose.
Context `{C : Collaborators}.

(** The three ways [compose] can end: the lookup fails, the lookup
    succeeds on a falsy name and the footer reads an unbound variable,
    or the widget tree is handed over. *)
Lemma compose_cases (self : MessageInfo) :
  compose self =
  match encoding_for_model (model_name self) with
  | None => inl (KeyError (model_name self))
  | Some enc =>
      if truthy (model_name self) then
        let markdown := or_empty (content (message self)) in
        inr (modal_dom markdown (encode enc markdown) enc
               ("Message sent at "
                +:+ format_timestamp
                      (dict_get (additional_kwargs (message self))
                         "timestamp" (PyInt 0)))
               (pretty (length (encode enc markdown)) +:+ " tokens")
               (Some "markdown-content"))
      else inl (UnboundLocalError "token_count")
  end.
Proof.
  unfold compose.
  destruct (encoding_for_model (model_name self)) as [enc|]; [|reflexivity].
  simpl. destruct (truthy (model_name self)); reflexivity.
Qed.

(** A tokenizer that refuses the empty name accepts truthy names only. *)
Lemma accepted_name_truthy (n : string) (enc : Encoding) :
  encoding_for_model EmptyString = None →
  encoding_for_model n = Some enc →
  truthy n = true.
Proof.
  intros Hempty Hn. unfold truthy.
  destruct (String.eqb_spec n EmptyString) as [->|]; [congruence|done].
Qed.

Lemma compose_accepted (self : MessageInfo) (enc : Encoding) :
  encoding_for_model EmptyString = None →
  encoding_for_model (model_name self) = Some enc →
  compose self =
  inr (modal_dom (or_empty (content (message self)))
         (encode enc (or_empty (content (message self)))) enc
         ("Message sent at "
          +:+ format_timestamp
                (dict_get (additional_kwargs (message self))
                   "timestamp" (PyInt 0)))
         (pretty (length (encode enc (or_empty (content (message self)))))
          +:+ " tokens")
         (Some "markdown-content")).
Proof.
  intros Hempty Hn. rewrite compose_cases, Hn.
  by rewrite (accepted_name_truthy _ _ Hempty Hn).
Qed.

(** The guard is what binds [token_count]: were a falsy name accepted
    by the lookup, the footer would read an unbound variable. *)
Lemma compose_guard_needed (self : MessageInfo) (enc : Encoding) :
  encoding_for_model (model_name self) = Some enc →
  truthy (model_name self) = false →
  compose self = inl (UnboundLocalError "token_count").
Proof. intros Hn Hf. by rewrite compose_cases, Hn, Hf. Qed.

End Compose.

(** Induction over a widget tree, with the children as a list. *)
Lemma Widget_tree_ind (P : Widget → Prop) :
  (∀ text i, P (Static text i)) →
  (∀ ts, P (Tabs ts)) →
  (∀ tokens enc i, P (TokenAnalysis tokens enc i)) →
  (∀ cur ws, Forall P ws → P (ContentSwitcher cur ws)) →
  (∀ k i ws, Forall P ws → P (Container k i ws)) →
  ∀ w, P w.
Proof.
  intros HStatic HTabs HTokens HSwitcher HContainer.
  fix IH 1. intros [text i|ts|tokens enc i|cur ws|k i ws].
  - apply HStatic.
  - apply HTabs.
  - apply HTokens.
  - apply HSwitcher.
    induction ws as [|w ws IHws]; constructor; [apply IH | exact IHws].
  - apply HContainer.
    induction ws as [|w ws IHws]; constructor; [apply IH | exact IHws].
Qed.

(** The content switchers of a tree, in document order. *)
Lemma switchers_cons w dom :
  omap is_switcher (flat_map flatten (w :: dom))
  = omap is_switcher (flatten w) ++ omap is_switcher (flat_map flatten dom).
Proof. simpl. apply omap_app. Qed.

(** What the assignment does to one widget: without a content switcher
    below it there is nothing to assign to; otherwise the first content
    switcher of the result shows the assigned view. *)
Lemma assign_current_switchers v : ∀ w,
  match assign_current v w with
  | Some w' => head (omap is_switcher (flatten w')) = Some v
  | None => omap is_switcher (flatten w) = []
  end.
Proof.
  induction w as [text i|ts|tokens enc i|cur ws _|k i ws IHws]
    using Widget_tree_ind; try reflexivity.
  cbn [assign_current].
  match goal with
  | |- context [option_map _ (?go ws)] =>
      assert (match go ws with
              | Some ws' => head (omap is_switcher (flat_map flatten ws')) = Some v
              | None => omap is_switcher (flat_map flatten ws) = []
              end) as Hgo
  end.
  { induction IHws as [|w ws Hw _ IH]; [reflexivity|].
    destruct (assign_current v w) as [w'|].
    - rewrite switchers_cons.
      destruct (omap is_switcher (flatten w')); [discriminate|]. exact Hw.
    - match goal with |- context [option_map _ ?g] => destruct g end;
        cbn [option_map]; rewrite switchers_cons, Hw; exact IH. }
  match goal with |- context [option_map _ ?g] => destruct g end; exact Hgo.
Qed.

Lemma assign_current_in_switchers v : ∀ dom,
  match assign_current_in v dom with
  | Some dom' => query_one is_switcher dom' = Some v
  | None => query_one is_switcher dom = None
  end.
Proof.
  unfold query_one. induction dom as [|w dom IH]; [reflexivity|].
  cbn [assign_current_in]. pose proof (assign_current_switchers v w) as Hw.
  destruct (assign_current v w) as [w'|].
  - rewrite switchers_cons.
    destruct (omap is_switcher (flatten w')); [discriminate|]. exact Hw.
  - destruct (assign_current_in v dom) as [dom'|]; cbn [option_map];
      rewrite switchers_cons, Hw; exact IH.
Qed.

(** On a composed tree, the activation of one of the three tabs
    rewrites the view and nothing else. *)
Lemma tab_activated_modal_dom md tk enc sent counted cur event :
  names_tab event →
  tab_activated (modal_dom md tk enc sent counted cur) event
  = inr (modal_dom md tk enc sent counted (tab_id (tab event))).
Proof.
  intros (i & Hi & Hid). unfold tab_activated. rewrite Hid.
  change (query_one is_switcher_node (modal_dom md tk enc sent counted cur))
    with (Some (cur, [Static md "markdown-content";
                      TokenAnalysis tk enc "tokens";
                      Static "Metadata" "metadata"])).
  cbv beta iota.
  assert (watch_current [Static md "markdown-content";
                         TokenAnalysis tk enc "tokens";
                         Static "Metadata" "metadata"] (Some i) = ok ()) as Hw.
  { unfold tab_ids in Hi.
    repeat (apply elem_of_cons in Hi as [->|Hi]); [reflexivity..|].
    by apply elem_of_nil in Hi. }
  destruct (bool_decide (Some i = cur)); [reflexivity|]. by rewrite Hw.
Qed.

Lemma current_view_modal_dom md tk enc sent counted cur :
  current_view (modal_dom md tk enc sent counted cur) = inr cur.
Proof. reflexivity. Qed.

(** A run of such activations: each one overwrites the view. *)
Lemma activate_all_modal_dom md tk enc sent counted events :
  Forall names_tab events →
  ∀ cur,
    activate_all (modal_dom md tk enc sent counted cur) events
    = inr (modal_dom md tk enc sent counted
             (fold_left (λ _ event, tab_id (tab event)) events cur)).
Proof.
  induction 1 as [|event rest Hevent _ IH]; intros cur; [reflexivity|].
  cbn [activate_all fold_left].
  rewrite (tab_activated_modal_dom _ _ _ _ _ _ _ Hevent).
  apply IH.
Qed.

Lemma names_tab_activation i : i ∈ tab_ids → names_tab (activation i).
Proof. intros Hi. by exists i. Qed.

(** C2. Whatever the message holds, a composed modal shows the view
    [markdown-content], and its tab strip carries the three identifiers.
    In every state reached by tab activations, the activation of a tab
    that carries one of the three identifiers succeeds and sets the view
    to that identifier; a run of such activations ends on the identifier
    of the last one, so [tokens] and then [metadata] leaves [metadata].
    An identifier that names no view changes nothing: the handler raises.
    A key press leaves the view as it is or closes the modal. *)
Theorem tab_selection_last_write_wins `{C : Collaborators}
    (self : MessageInfo) (enc : Encoding) :
  encoding_for_model EmptyString = None →
  encoding_for_model (model_name self) = Some enc →
  ∃ dom,
    compose self = inr dom
    ∧ current_view dom = inr (Some "markdown-content")
    ∧ (∃ strip, query_one is_tabs dom = Some strip
                ∧ tab_id <$> strip = Some <$> tab_ids)
    ∧ (∀ events event,
         Forall names_tab events → names_tab event →
         ∃ dom1 dom2, activate_all dom events = inr dom1
                      ∧ tab_activated dom1 event = inr dom2
                      ∧ current_view dom2 = inr (tab_id (tab event)))
    ∧ (∀ events final,
         Forall names_tab events → names_tab final →
         ∃ dom', activate_all dom (events ++ [final]) = inr dom'
                 ∧ current_view dom' = inr (tab_id (tab final)))
    ∧ (∃ dom', activate_all dom [activation "tokens"; activation "metadata"]
                 = inr dom'
               ∧ current_view dom' = inr (Some "metadata"))
    ∧ (∀ i, i ≠ EmptyString → i ∉ tab_ids →
            tab_activated dom (activation i) = inl (NoMatches ("#" +:+ i)))
    ∧ (∀ key, dispatch dom (OnKey key) = inr PopScreen
              ∨ dispatch dom (OnKey key) = inr (Shown dom)).
Proof.
  intros Hempty Hn. eexists. split; [by apply compose_accepted|].
  split; [reflexivity|]. split; [eexists; split; reflexivity|].
  split; [|split; [|split; [|split]]].
  - intros events event Hevents Hevent. eexists _, _.
    split; [by apply activate_all_modal_dom|].
    split; [by apply tab_activated_modal_dom|].
    apply current_view_modal_dom.
  - intros events final Hevents Hfinal. eexists.
    split; [apply activate_all_modal_dom|].
    + apply Forall_app. split; [exact Hevents|]. by apply Forall_singleton.
    + rewrite current_view_modal_dom. by rewrite fold_left_app.
  - eexists. split; [apply activate_all_modal_dom|reflexivity].
    repeat constructor; apply names_tab_activation; unfold tab_ids;
      set_solver.
  - intros i Hne Hi. unfold tab_ids in Hi.
    apply not_elem_of_cons in Hi as [H1 Hi].
    apply not_elem_of_cons in Hi as [H2 Hi].
    apply not_elem_of_cons in Hi as [H3 _].
    unfold tab_activated, activation. cbn [tab tab_id].
    match goal with
    | |- context [query_one is_switcher_node ?d] =>
        change (query_one is_switcher_node d)
          with (Some (Some "markdown-content",
                      [Static (or_empty (content (message self)))
                         "markdown-content";
                       TokenAnalysis
                         (encode enc (or_empty (content (message self))))
                         enc "tokens";
                       Static "Metadata" "metadata"]))
    end.
    cbv beta iota. rewrite bool_decide_eq_false_2 by congruence.
    unfold watch_current, truthy, has_child. cbn [existsb widget_id].
    rewrite !bool_decide_eq_false_2 by congruence.
    destruct (String.eqb_spec i EmptyString); [done|reflexivity].
  - intros key. unfold dispatch. destruct (String.eqb key "escape"); auto.
Qed.

Lemma tab_selection_last_write_wins_witness :
  @encoding_for_model Fixture.collaborators EmptyString = None
  ∧ ∃ dom,
      @compose Fixture.collaborators (Fixture.modal (Some "hi") "gpt-3.5-turbo")
        = inr dom
      ∧ current_view dom = inr (Some "markdown-content").
Proof.
  split; [reflexivity|].
  destruct (@tab_selection_last_write_wins Fixture.collaborators
              (Fixture.modal (Some "hi") "gpt-3.5-turbo") Fixture.code_points
              eq_refl eq_refl) as (dom & Hc & Hv & _).
  exists dom. split; assumption.
Defined.

(** C3. With a model name that the tokenizer does not know, composing
    the modal built by [__init__] ends in the [KeyError] of the lookup:
    the error is what [compose] returns, and no widget tree is. *)
Theorem compose_unrecognized_model_fails `{C : Collaborators}
    (message : BaseMessage) (model_name : string) (name id classes : option string) :
  encoding_for_model model_name = None →
  compose (MessageInfo_init message model_name name id classes)
    = inl (KeyError model_name)
  ∧ ∀ dom, compose (MessageInfo_init message model_name name id classes)
           ≠ inr dom.
Proof.
  intros Hn. assert (compose (MessageInfo_init message model_name name id classes)
                     = inl (KeyError model_name)) as ->.
  { rewrite compose_cases. simpl. by rewrite Hn. }
  split; [reflexivity|]. intros dom; discriminate.
Qed.

Lemma compose_unrecognized_model_fails_witness :
  @encoding_for_model Fixture.collaborators "not-a-real-model" = None
  ∧ @compose Fixture.collaborators
      (MessageInfo_init (Fixture.bare (Some "hi")) "not-a-real-model" None None None)
    = inl (KeyError "not-a-real-model").
Proof.
  split; [reflexivity|].
  apply (@compose_unrecognized_model_fails Fixture.collaborators
           (Fixture.bare (Some "hi")) "not-a-real-model" None None None eq_refl).
Defined.

(** C7. A message without content, or with the empty string as content,
    is composed like the empty string: given an encoder that yields no
    token for it, the modal is built, the token view holds no token and
    the footer reads [0 tokens]. *)
Theorem empty_content_zero_tokens `{C : Collaborators}
    (self : MessageInfo) (enc : Encoding) :
  content (message self) = None ∨ content (message self) = Some EmptyString →
  encoding_for_model EmptyString = None →
  encoding_for_model (model_name self) = Some enc →
  encode enc EmptyString = [] →
  ∃ dom,
    compose self = inr dom
    ∧ static_text "markdown-content" dom = Some EmptyString
    ∧ query_one is_token_analysis dom = Some []
    ∧ static_text "token-count" dom = Some "0 tokens".
Proof.
  intros Hcontent Hempty Hn Henc. eexists.
  split; [by apply compose_accepted|].
  assert (or_empty (content (message self)) = EmptyString) as ->.
  { by destruct Hcontent as [-> | ->]. }
  rewrite Henc. repeat split.
Qed.

Lemma empty_content_zero_tokens_witness :
  encode Fixture.code_points EmptyString = []
  ∧ ∃ dom,
      @compose Fixture.collaborators (Fixture.modal None "gpt-3.5-turbo") = inr dom
      ∧ static_text "token-count" dom = Some "0 tokens".
Proof.
  split; [reflexivity|].
  destruct (@empty_content_zero_tokens Fixture.collaborators
              (Fixture.modal None "gpt-3.5-turbo") Fixture.code_points
              (or_introl eq_refl) eq_refl eq_refl eq_refl)
    as (dom & Hc & _ & _ & Ht).
  exists dom. split; assumption.
Defined.

(** C8. A message whose metadata has no [timestamp] key is composed
    without failure: the footer shows the formatter's text for [0], and
    the whole result is the one obtained with [timestamp] present and
    equal to [0]. *)
Theorem missing_timestamp_defaults_to_zero `{C : Collaborators}
    (self : MessageInfo) (enc : Encoding) :
  additional_kwargs (message self) !! "timestamp" = None →
  encoding_for_model EmptyString = None →
  encoding_for_model (model_name self) = Some enc →
  ∃ dom,
    compose self = inr dom
    ∧ static_text "timestamp" dom
      = Some ("Message sent at " +:+ format_timestamp (PyInt 0))
    ∧ compose (with_timestamp self (PyInt 0)) = inr dom.
Proof.
  intros Hts Hempty Hn. eexists.
  split; [by apply compose_accepted|].
  unfold dict_get. rewrite Hts. split; [reflexivity|].
  rewrite (compose_accepted (with_timestamp self (PyInt 0)) enc Hempty Hn).
  simpl. unfold dict_get. by rewrite lookup_insert_eq.
Qed.

Lemma missing_timestamp_defaults_to_zero_witness :
  additional_kwargs (Fixture.bare (Some "hi")) !! "timestamp" = None
  ∧ ∃ dom,
      @compose Fixture.collaborators (Fixture.modal (Some "hi") "gpt-3.5-turbo")
        = inr dom
      ∧ static_text "timestamp" dom = Some "Message sent at 0".
Proof.
  split; [reflexivity|].
  destruct (@missing_timestamp_defaults_to_zero Fixture.collaborators
              (Fixture.modal (Some "hi") "gpt-3.5-turbo") Fixture.code_points
              eq_refl eq_refl eq_refl) as (dom & Hc & Ht & _).
  exists dom. split; assumption.
Defined.

(** C10. The lookup comes first and refuses the empty name, so a name it
    accepts is truthy: the guard holds, [token_count] is bound when the
    footer reads it, [compose] never ends in [UnboundLocalError], and the
    footer shows the number of tokens of the content. *)
Theorem token_count_always_bound `{C : Collaborators}
    (self : MessageInfo) (enc : Encoding) :
  encoding_for_model EmptyString = None →
  encoding_for_model (model_name self) = Some enc →
  truthy (model_name self) = true
  ∧ (∀ var, compose self ≠ inl (UnboundLocalError var))
  ∧ ∃ dom,
      compose self = inr dom
      ∧ static_text "token-count" dom
        = Some (pretty (length (encode enc (or_empty (content (message self)))))
                +:+ " tokens").
Proof.
  intros Hempty Hn. split; [by eapply accepted_name_truthy|].
  rewrite (compose_accepted self enc Hempty Hn).
  split; [intros var; discriminate|].
  eexists. split; reflexivity.
Qed.

Lemma token_count_always_bound_witness :
  @encoding_for_model Fixture.collaborators EmptyString = None
  ∧ ∃ dom,
      @compose Fixture.collaborators (Fixture.modal (Some "hi") "gpt-3.5-turbo")
        = inr dom
      ∧ static_text "token-count" dom = Some "2 tokens".
Proof.
  split; [reflexivity|].
  destruct (@token_count_always_bound Fixture.collaborators
              (Fixture.modal (Some "hi") "gpt-3.5-turbo") Fixture.code_points
              eq_refl eq_refl) as (_ & _ & dom & Hc & Ht).
  exists dom. split; assumption.
Defined.

Import Observe.

(** * Further properties of the catalogue and the configuration *)

(** X1. Looking a name up in [all_models] by first match finds the
    user's model of that name when there is one, and the builtin one
    otherwise: a user entry shadows a builtin of the same name. *)
Theorem all_models_first_match (cfg : LaunchConfig) (n : string) :
  head (named n (all_models cfg))
  = match head (named n (models cfg)) with
    | Some m => Some m
    | None => head (named n (builtin_models cfg))
    end.
Proof.
  rewrite all_models_named.
  destruct (named n (models cfg)) as [|m rest] eqn:Hn; reflexivity.
Qed.

(** X2. Whatever models and system prompt the caller passes, the default
    [default_model] of the configuration names a model of [all_models]:
    the default model can always be resolved. *)
Theorem default_model_resolves environ sp ms :
  ∃ cfg, LaunchConfig_init environ (caller_args None sp ms) = inr cfg
         ∧ ∃ m, m ∈ all_models cfg ∧ name m = default_model cfg.
Proof.
  eexists. split; [apply LaunchConfig_init_eq|].
  exists gpt_35_turbo. split; [|reflexivity].
  unfold all_models. cbn [models builtin_models caller_args kw_models
                          kw_builtin_models default].
  apply elem_of_app. right. unfold builtin_catalogue, openai_catalogue.
  apply elem_of_app. left. apply list_elem_of_here.
Qed.

(** X3. Of the environment, the constructor looks at [ELIA_SYSTEM_PROMPT]
    only: two environments that agree on it give the same configuration
    for the same arguments. *)
Theorem launch_config_reads_one_variable
    (environ environ' : gmap string string) (kw : LaunchConfigArgs) :
  environ !! "ELIA_SYSTEM_PROMPT" = environ' !! "ELIA_SYSTEM_PROMPT" →
  LaunchConfig_init environ kw = LaunchConfig_init environ' kw.
Proof.
  intros Heq. rewrite !LaunchConfig_init_eq.
  unfold system_prompt_default, os_getenv. by rewrite Heq.
Qed.

Lemma launch_config_reads_one_variable_witness :
  LaunchConfig_init {["HOME" := "/home/elia"]} no_args
  = LaunchConfig_init ∅ no_args.
Proof.
  apply (launch_config_reads_one_variable {["HOME" := "/home/elia"]} ∅ no_args).
  reflexivity.
Defined.

(** X4. For a configuration built without the [builtin_models] keyword:
    when the user's models have pairwise different names, none of them a
    builtin name, the names of [all_models] are pairwise different too,
    so a lookup by name has at most one answer. *)
Theorem all_models_names_distinct environ dm sp (ms : list EliaChatModel) :
  NoDup (name <$> ms) →
  (∀ m, m ∈ ms → name m ∉ name <$> builtin_catalogue) →
  ∃ cfg, LaunchConfig_init environ (caller_args dm sp (Some ms)) = inr cfg
         ∧ NoDup (name <$> all_models cfg).
Proof.
  intros Hms Hfresh. eexists. split; [apply LaunchConfig_init_eq|].
  unfold all_models. cbn [models builtin_models caller_args kw_models
                          kw_builtin_models default].
  rewrite fmap_app. apply NoDup_app. split; [exact Hms|]. split.
  - intros n Hn. apply list_elem_of_fmap in Hn as (m & -> & Hm).
    by apply Hfresh.
  - apply (bool_decide_unpack _). by vm_compute.
Qed.

Lemma all_models_names_distinct_witness :
  ∃ cfg, LaunchConfig_init ∅ (caller_args None None (Some [local_model])) = inr cfg
         ∧ NoDup (name <$> all_models cfg).
Proof.
  apply (all_models_names_distinct ∅ None None [local_model]).
  - apply (bool_decide_unpack _). by vm_compute.
  - intros m Hm. apply list_elem_of_singleton in Hm as ->.
    apply (bool_decide_unpack _). by vm_compute.
Defined.

(** The integer value of a whole float is unique. *)
Lemma whole_unique q z z' : whole q z → whole q z' → z = z'.
Proof. unfold whole. intros -> H. nia. Qed.

(** The three outcomes of the [int] validation of a float. *)
Lemma validate_int_float (q : QArith_base.Q) :
  match validate_int (PyFloat q) with
  | inr z => whole q z ∧ int_lower < z < int_upper
  | inl kind =>
      (kind = "int_from_float" ∧ ∀ z, ¬ whole q z)
      ∨ (kind = "int_parsing_size"
         ∧ ∃ z, whole q z ∧ (z ≤ int_lower ∨ int_upper ≤ z))
  end.
Proof.
  unfold validate_int, whole.
  set (n := QArith_base.Qnum q). set (d := Z.pos (QArith_base.Qden q)).
  destruct (Z.eqb_spec (Z.rem n d) 0) as [Hrem|Hrem]; cbn [negb].
  - assert (n = Z.quot n d * d) as Hn.
    { rewrite (Z.quot_rem' n d) at 1. rewrite Hrem. lia. }
    destruct (Z.ltb_spec int_lower (Z.quot n d));
      destruct (Z.ltb_spec (Z.quot n d) int_upper); cbn [andb].
    + split; [exact Hn|lia].
    + right. split; [reflexivity|]. exists (Z.quot n d). split; [exact Hn|lia].
    + right. split; [reflexivity|]. exists (Z.quot n d). split; [exact Hn|lia].
    + right. split; [reflexivity|]. exists (Z.quot n d). split; [exact Hn|lia].
  - left. split; [reflexivity|]. intros z Hz. apply Hrem. rewrite Hz.
    apply Z.rem_mul. unfold d. lia.
Qed.

(** X5. A float given as [temperature] or as [max_retries], both
    annotated [int]: with a fractional part it is refused
    ([int_from_float]); whole and strictly between [-2^63] and [2^63] it
    is accepted and stored as the integer of the same value; whole and
    below [-2^63] or at least [2^63] it is refused ([int_parsing_size]).
    The [ValidationError] names the field. *)
Theorem float_fields_whole_or_refused (kw : EliaChatModelArgs) (q : QArith_base.Q) :
  ((∀ z, ¬ whole q z) →
   EliaChatModel_init (with_numbers kw (Some (PyFloat q)) None)
   = inl (ValidationError [("temperature", "int_from_float")])
   ∧ EliaChatModel_init (with_numbers kw None (Some (PyFloat q)))
     = inl (ValidationError [("max_retries", "int_from_float")]))
  ∧ (∀ z, whole q z → int_lower < z < int_upper →
          EliaChatModel_init (with_numbers kw (Some (PyFloat q)) None)
          = inr (stored kw (PyInt z) 0)
          ∧ EliaChatModel_init (with_numbers kw None (Some (PyFloat q)))
            = inr (stored kw temperature_default z))
  ∧ (∀ z, whole q z → z < int_lower ∨ int_upper ≤ z →
          EliaChatModel_init (with_numbers kw (Some (PyFloat q)) None)
          = inl (ValidationError [("temperature", "int_parsing_size")])
          ∧ EliaChatModel_init (with_numbers kw None (Some (PyFloat q)))
            = inl (ValidationError [("max_retries", "int_parsing_size")])).
Proof.
  pose proof (validate_int_float q) as Hq.
  unfold EliaChatModel_init, int_field.
  cbn [with_numbers kw_temperature kw_max_retries].
  destruct (validate_int (PyFloat q)) as [kind|z0].
  - destruct Hq as [[-> Hfrac]|[-> (z0 & Hz0 & Hout)]].
    + split; [done|]. split; intros z Hz; by destruct (Hfrac z).
    + split; [intros Hfrac; by destruct (Hfrac z0)|].
      split; intros z Hz Hrange; [|done].
      rewrite (whole_unique _ _ _ Hz Hz0) in Hrange. lia.
  - destruct Hq as [Hz0 Hin].
    split; [intros Hfrac; by destruct (Hfrac z0)|].
    split; intros z Hz Hrange; rewrite (whole_unique _ _ _ Hz Hz0) in *.
    + done.
    + lia.
Qed.

Lemma float_fields_whole_or_refused_witness :
  whole (QArith_base.Qmake 2 1) 2
  ∧ EliaChatModel_init
      (with_numbers (only_name "m") (Some (PyFloat (QArith_base.Qmake 2 1))) None)
    = inr (stored (only_name "m") (PyInt 2) 0).
Proof.
  split; [reflexivity|].
  apply (float_fields_whole_or_refused (only_name "m") (QArith_base.Qmake 2 1)).
  - reflexivity.
  - by vm_compute.
Defined.

(** * Further properties of the message-information modal *)

(** The children of a container are searched like a widget tree. *)
Lemma assign_current_container v k i ws :
  assign_current v (Container k i ws)
  = option_map (Container k i) (assign_current_in v ws).
Proof.
  cbn [assign_current]. f_equal.
  induction ws as [|w ws IH]; [reflexivity|].
  cbn [assign_current_in]. destruct (assign_current v w); [reflexivity|].
  by rewrite IH.
Qed.

Lemma selected_cons {A : Type} (sel : Widget → option A) w dom :
  omap sel (flat_map flatten (w :: dom))
  = omap sel (flatten w) ++ omap sel (flat_map flatten dom).
Proof. simpl. apply omap_app. Qed.

Lemma assign_current_in_first (ws : list Widget) :
  Forall (λ w, ∀ v,
            match assign_current v w with
            | Some w' => first_switcher_set v (flatten w) (flatten w')
            | None => omap is_switcher (flatten w) = []
            end) ws →
  ∀ v, match assign_current_in v ws with
       | Some ws' =>
           first_switcher_set v (flat_map flatten ws) (flat_map flatten ws')
       | None => omap is_switcher (flat_map flatten ws) = []
       end.
Proof.
  induction 1 as [|w ws Hw _ IH]; intros v; [reflexivity|].
  cbn [assign_current_in]. specialize (Hw v). specialize (IH v).
  destruct (assign_current v w) as [w'|].
  - destruct Hw as (cur & rest & Hb & Ha).
    exists cur, (rest ++ omap is_switcher (flat_map flatten ws)).
    by rewrite !selected_cons, Hb, Ha.
  - destruct (assign_current_in v ws) as [ws'|]; cbn [option_map].
    + destruct IH as (cur & rest & Hb & Ha). exists cur, rest.
      by rewrite !selected_cons, Hw, Hb, Ha.
    + by rewrite selected_cons, Hw, IH.
Qed.

Lemma assign_current_first : ∀ w v,
  match assign_current v w with
  | Some w' => first_switcher_set v (flatten w) (flatten w')
  | None => omap is_switcher (flatten w) = []
  end.
Proof.
  induction w as [text i|ts|tokens enc i|cur ws _|k i ws IHws]
    using Widget_tree_ind; intros v; try reflexivity.
  - exists cur, (omap is_switcher (flat_map flatten ws)). split; reflexivity.
  - rewrite assign_current_container.
    pose proof (assign_current_in_first ws IHws v) as Hws.
    destruct (assign_current_in v ws) as [ws'|]; exact Hws.
Qed.

Lemma assign_current_in_first_all dom v :
  match assign_current_in v dom with
  | Some dom' =>
      first_switcher_set v (flat_map flatten dom) (flat_map flatten dom')
  | None => omap is_switcher (flat_map flatten dom) = []
  end.
Proof.
  apply assign_current_in_first, Forall_forall. intros w _.
  apply assign_current_first.
Qed.

(** Whether there is a content switcher to assign to does not depend on
    the value assigned. *)
Lemma assign_current_defined v v' w :
  assign_current v w = None → assign_current v' w = None.
Proof.
  intros Hv. pose proof (assign_current_first w v) as H.
  pose proof (assign_current_first w v') as H'. rewrite Hv in H.
  destruct (assign_current v' w); [|reflexivity].
  destruct H' as (cur & rest & Hb & _). congruence.
Qed.

Lemma assign_current_in_defined v v' dom :
  assign_current_in v dom = None → assign_current_in v' dom = None.
Proof.
  intros Hv. pose proof (assign_current_in_first_all dom v) as H.
  pose proof (assign_current_in_first_all dom v') as H'. rewrite Hv in H.
  destruct (assign_current_in v' dom); [|reflexivity].
  destruct H' as (cur & rest & Hb & _). congruence.
Qed.

(** A second assignment overwrites the first. *)
Lemma assign_current_in_twice (ws : list Widget) :
  Forall (λ w, ∀ v v' w', assign_current v w = Some w' →
                          assign_current v' w' = assign_current v' w) ws →
  ∀ v v' ws', assign_current_in v ws = Some ws' →
              assign_current_in v' ws' = assign_current_in v' ws.
Proof.
  induction 1 as [|w ws Hw _ IH]; intros v v' ws'; [discriminate|].
  cbn [assign_current_in].
  destruct (assign_current v w) as [w1|] eqn:Hv.
  - intros [= <-]. cbn [assign_current_in]. rewrite (Hw _ v' _ Hv).
    destruct (assign_current v' w) as [w2|] eqn:Hv'; [reflexivity|].
    rewrite (assign_current_defined _ v _ Hv') in Hv. discriminate.
  - destruct (assign_current_in v ws) as [ws1|] eqn:Hin; [|discriminate].
    intros [= <-]. cbn [assign_current_in].
    rewrite (assign_current_defined _ v' _ Hv). by rewrite (IH _ v' _ Hin).
Qed.

Lemma assign_current_twice : ∀ w v v' w',
  assign_current v w = Some w' → assign_current v' w' = assign_current v' w.
Proof.
  induction w as [text i|ts|tokens enc i|cur ws _|k i ws IHws]
    using Widget_tree_ind; intros v v' w'; try discriminate.
  - intros [= <-]. reflexivity.
  - rewrite assign_current_container.
    destruct (assign_current_in v ws) as [ws1|] eqn:Hin; [|discriminate].
    intros [= <-]. rewrite !assign_current_container.
    by rewrite (assign_current_in_twice ws IHws _ v' _ Hin).
Qed.

(** The first content switcher keeps its children. *)
Lemma assign_current_in_node (ws : list Widget) :
  Forall (λ w, ∀ v,
            match assign_current v w with
            | Some w' => first_node_set v (flatten w) (flatten w')
            | None => omap is_switcher_node (flatten w) = []
            end) ws →
  ∀ v, match assign_current_in v ws with
       | Some ws' => first_node_set v (flat_map flatten ws) (flat_map flatten ws')
       | None => omap is_switcher_node (flat_map flatten ws) = []
       end.
Proof.
  induction 1 as [|w ws Hw _ IH]; intros v; [reflexivity|].
  cbn [assign_current_in]. specialize (Hw v). specialize (IH v).
  destruct (assign_current v w) as [w'|].
  - destruct Hw as (cur & views & rest & Hb & Ha).
    exists cur, views, (rest ++ omap is_switcher_node (flat_map flatten ws)).
    by rewrite !selected_cons, Hb, Ha.
  - destruct (assign_current_in v ws) as [ws'|]; cbn [option_map].
    + destruct IH as (cur & views & rest & Hb & Ha). exists cur, views, rest.
      by rewrite !selected_cons, Hw, Hb, Ha.
    + by rewrite selected_cons, Hw, IH.
Qed.

Lemma assign_current_node : ∀ w v,
  match assign_current v w with
  | Some w' => first_node_set v (flatten w) (flatten w')
  | None => omap is_switcher_node (flatten w) = []
  end.
Proof.
  induction w as [text i|ts|tokens enc i|cur ws _|k i ws IHws]
    using Widget_tree_ind; intros v; try reflexivity.
  - exists cur, ws, (omap is_switcher_node (flat_map flatten ws)).
    split; reflexivity.
  - rewrite assign_current_container.
    pose proof (assign_current_in_node ws IHws v) as Hws.
    destruct (assign_current_in v ws) as [ws'|]; exact Hws.
Qed.

Lemma assign_current_in_node_all dom v :
  match assign_current_in v dom with
  | Some dom' => first_node_set v (flat_map flatten dom) (flat_map flatten dom')
  | None => omap is_switcher_node (flat_map flatten dom) = []
  end.
Proof.
  apply assign_current_in_node, Forall_forall. intros w _.
  apply assign_current_node.
Qed.

(** When the handler returns: there is a content switcher, the new value
    is its present view or names one of its children, and the tree is
    the one with the view assigned. *)
Lemma tab_activated_inr dom event dom' :
  tab_activated dom event = inr dom'
  ↔ ∃ cur views,
      query_one is_switcher_node dom = Some (cur, views)
      ∧ (tab_id (tab event) = cur
         ∨ watch_current views (tab_id (tab event)) = inr ())
      ∧ assign_current_in (tab_id (tab event)) dom = Some dom'.
Proof.
  unfold tab_activated.
  destruct (query_one is_switcher_node dom) as [[cur views]|].
  - split.
    + intros H. exists cur, views. split; [reflexivity|].
      case_bool_decide as Hcur.
      * destruct (assign_current_in (tab_id (tab event)) dom); [|discriminate].
        injection H as <-. split; [by left|reflexivity].
      * destruct (watch_current views (tab_id (tab event))) as [e|[]];
          [discriminate|].
        destruct (assign_current_in (tab_id (tab event)) dom); [|discriminate].
        injection H as <-. split; [by right|reflexivity].
    + intros (cur' & views' & [= <- <-] & Hcheck & ->).
      case_bool_decide as Hcur; [reflexivity|].
      destruct Hcheck as [Heq| ->]; [done|reflexivity].
  - split; [discriminate|]. by intros (? & ? & [=] & _).
Qed.

(** After an activation, a second one does what it would have done at
    first. *)
Lemma tab_activated_after dom event dom1 event' dom2 :
  tab_activated dom event = inr dom1 →
  tab_activated dom1 event' = inr dom2 →
  tab_activated dom event' = inr dom2.
Proof.
  intros (cur & views & Hq & Hcheck & Hin)%tab_activated_inr
         (cur1 & views1 & Hq1 & Hcheck1 & Hin1)%tab_activated_inr.
  pose proof (assign_current_in_node_all dom (tab_id (tab event))) as Hnode.
  rewrite Hin in Hnode. destruct Hnode as (c & vs & rest & Hb & Ha).
  unfold query_one in Hq, Hq1. rewrite Hb in Hq. rewrite Ha in Hq1.
  injection Hq as -> ->. injection Hq1 as <- <-.
  apply tab_activated_inr. exists cur, views.
  split; [unfold query_one; by rewrite Hb|]. split.
  - destruct Hcheck1 as [Heq|Hw]; [|by right].
    rewrite Heq. destruct Hcheck as [<-|Hw]; [by left|by right].
  - rewrite <- Hin1. symmetry.
    apply (assign_current_in_twice dom) with (v := tab_id (tab event));
      [|exact Hin].
    apply Forall_forall. intros w _. apply assign_current_twice.
Qed.

(** What a leaf selector finds is the same before and after. *)
Lemma assign_current_in_leaves {A : Type} (sel : Widget → option A)
    (ws : list Widget) :
  Forall (λ w, ∀ v w', assign_current v w = Some w' →
                       omap sel (flatten w') = omap sel (flatten w)) ws →
  ∀ v ws', assign_current_in v ws = Some ws' →
           omap sel (flat_map flatten ws') = omap sel (flat_map flatten ws).
Proof.
  induction 1 as [|w ws Hw _ IH]; intros v ws'; [discriminate|].
  cbn [assign_current_in].
  destruct (assign_current v w) as [w1|] eqn:Hv.
  - intros [= <-]. by rewrite !selected_cons, (Hw _ _ Hv).
  - destruct (assign_current_in v ws) as [ws1|] eqn:Hin; [|discriminate].
    intros [= <-]. by rewrite !selected_cons, (IH _ _ Hin).
Qed.

Lemma assign_current_leaves {A : Type} (sel : Widget → option A) :
  leaf_selector sel →
  ∀ w v w', assign_current v w = Some w' →
            omap sel (flatten w') = omap sel (flatten w).
Proof.
  intros [Hswitcher Hcontainer].
  induction w as [text i|ts|tokens enc i|cur ws _|k i ws IHws]
    using Widget_tree_ind; intros v w'; try discriminate.
  - intros [= <-]. simpl. by rewrite !Hswitcher.
  - rewrite assign_current_container.
    destruct (assign_current_in v ws) as [ws1|] eqn:Hin; [|discriminate].
    intros [= <-]. simpl. rewrite !Hcontainer.
    apply (assign_current_in_leaves sel ws IHws _ _ Hin).
Qed.

Lemma tab_activated_leaves {A : Type} (sel : Widget → option A) dom event dom' :
  leaf_selector sel →
  tab_activated dom event = inr dom' →
  query_one sel dom' = query_one sel dom.
Proof.
  intros Hsel (cur & views & _ & _ & Hin)%tab_activated_inr.
  unfold query_one. f_equal.
  apply (assign_current_in_leaves sel dom) with (v := tab_id (tab event)); [|done].
  apply Forall_forall. intros w _. by apply assign_current_leaves.
Qed.

(** X7. A message without content and a message whose content is the
    empty string cannot be told apart: [compose] gives the same result
    for both, whatever the tokenizer, the metadata and the model name. *)
Theorem absent_content_is_empty_content `{C : Collaborators}
    (metadata : gmap string pynum) (model_name : string)
    (name id classes : option string) :
  compose (MessageInfo_init {| content := None; additional_kwargs := metadata |}
             model_name name id classes)
  = compose (MessageInfo_init
               {| content := Some EmptyString; additional_kwargs := metadata |}
               model_name name id classes).
Proof. by rewrite !compose_cases. Qed.

(** X8. [compose] reads the content, the model name and the [timestamp]
    entry of the metadata, and nothing else: two modals that agree on
    these three give the same result, whatever their other metadata and
    their screen name, id and classes. *)
Theorem compose_reads_three_inputs `{C : Collaborators} (self self' : MessageInfo) :
  content (message self) = content (message self') →
  model_name self = model_name self' →
  additional_kwargs (message self) !! "timestamp"
  = additional_kwargs (message self') !! "timestamp" →
  compose self = compose self'.
Proof.
  intros Hc Hn Ht. rewrite !compose_cases. unfold dict_get.
  by rewrite Hc, Hn, Ht.
Qed.

Lemma compose_reads_three_inputs_witness :
  @compose Fixture.collaborators
    (MessageInfo_init
       {| content := Some "hi";
          additional_kwargs := {["timestamp" := PyInt 7; "tokens" := PyInt 2]} |}
       "gpt-3.5-turbo" (Some "info") None None)
  = @compose Fixture.collaborators
      (MessageInfo_init
         {| content := Some "hi";
            additional_kwargs := {["timestamp" := PyInt 7]} |}
         "gpt-3.5-turbo" None (Some "modal") None).
Proof.
  apply (@compose_reads_three_inputs Fixture.collaborators); reflexivity.
Defined.

(** X9. In a composed modal the views under the content switcher carry
    the identifiers of the tabs, one view per tab and in the same order,
    all different; the view shown first is that of the first tab. *)
Theorem tabs_match_views `{C : Collaborators} (self : MessageInfo)
    (dom : list Widget) :
  compose self = inr dom →
  ∃ strip views,
    query_one is_tabs dom = Some strip
    ∧ query_one is_switcher_children dom = Some views
    ∧ tab_id <$> strip = widget_id <$> views
    ∧ NoDup (tab_id <$> strip)
    ∧ current_view dom = inr (head strip ≫= tab_id).
Proof.
  rewrite compose_cases.
  destruct (encoding_for_model (model_name self)) as [enc|]; [|discriminate].
  destruct (truthy (model_name self)); [|discriminate].
  intros [= <-]. eexists _, _.
  split; [reflexivity|]. split; [reflexivity|]. split; [reflexivity|].
  split; [|reflexivity]. apply (bool_decide_unpack _). by vm_compute.
Qed.

Lemma tabs_match_views_witness :
  ∃ strip views,
    query_one is_tabs
      (modal_dom "hi" [104; 105] Fixture.code_points "Message sent at 0"
         "2 tokens" (Some "markdown-content")) = Some strip
    ∧ query_one is_switcher_children
        (modal_dom "hi" [104; 105] Fixture.code_points "Message sent at 0"
           "2 tokens" (Some "markdown-content")) = Some views
    ∧ tab_id <$> strip = widget_id <$> views.
Proof.
  destruct (@tabs_match_views Fixture.collaborators
              (Fixture.modal (Some "hi") "gpt-3.5-turbo")
              (modal_dom "hi" [104; 105] Fixture.code_points "Message sent at 0"
                 "2 tokens" (Some "markdown-content")) eq_refl)
    as (strip & views & Hs & Hv & Hids & _).
  exists strip, views. repeat split; assumption.
Defined.

(** X10. In a composed modal the three displays of the content agree:
    the markdown view shows the content (the empty string when there is
    none), the token view holds the encoding of exactly that text by the
    encoder of the model, and the footer counts exactly those tokens. *)
Theorem token_view_matches_text `{C : Collaborators} (self : MessageInfo)
    (dom : list Widget) :
  compose self = inr dom →
  ∃ enc text tokens,
    encoding_for_model (model_name self) = Some enc
    ∧ text = default EmptyString (content (message self))
    ∧ static_text "markdown-content" dom = Some text
    ∧ query_one is_token_analysis dom = Some tokens
    ∧ tokens = encode enc text
    ∧ static_text "token-count" dom = Some (pretty (length tokens) +:+ " tokens").
Proof.
  rewrite compose_cases.
  destruct (encoding_for_model (model_name self)) as [enc|]; [|discriminate].
  destruct (truthy (model_name self)); [|discriminate].
  intros [= <-]. exists enc. eexists _, _. split; [reflexivity|].
  assert (or_empty (content (message self))
          = default EmptyString (content (message self))) as ->.
  { destruct (content (message self)) as [s|]; [|reflexivity]. simpl.
    by destruct (String.eqb_spec s EmptyString) as [->|]. }
  repeat split.
Qed.

Lemma token_view_matches_text_witness :
  ∃ tokens,
    query_one is_token_analysis
      (modal_dom "hi" [104; 105] Fixture.code_points "Message sent at 0"
         "2 tokens" (Some "markdown-content")) = Some tokens
    ∧ tokens = encode Fixture.code_points "hi".
Proof.
  destruct (@token_view_matches_text Fixture.collaborators
              (Fixture.modal (Some "hi") "gpt-3.5-turbo")
              (modal_dom "hi" [104; 105] Fixture.code_points "Message sent at 0"
                 "2 tokens" (Some "markdown-content")) eq_refl)
    as (enc & text & tokens & He & -> & _ & Hq & -> & _).
  injection He as <-. eexists. split; [exact Hq|reflexivity].
Defined.

(** X11. A [timestamp] stored in the metadata of the message is what the
    footer shows, in the formatter's rendering, whatever value the key
    held before. *)
Theorem stored_timestamp_is_shown `{C : Collaborators} (self : MessageInfo)
    (enc : Encoding) (v : pynum) :
  encoding_for_model (model_name self) = Some enc →
  model_name self ≠ EmptyString →
  ∃ dom, compose (with_timestamp self v) = inr dom
         ∧ static_text "timestamp" dom
           = Some ("Message sent at " +:+ format_timestamp v).
Proof.
  intros Hn Hne. rewrite compose_cases. cbn [with_timestamp model_name message
                                              content additional_kwargs].
  rewrite Hn. unfold truthy.
  destruct (String.eqb_spec (model_name self) EmptyString) as [|_]; [done|].
  eexists. split; [reflexivity|]. unfold dict_get.
  by rewrite lookup_insert_eq.
Qed.

Lemma stored_timestamp_is_shown_witness :
  ∃ dom, @compose Fixture.collaborators
           (with_timestamp (Fixture.modal (Some "hi") "gpt-3.5-turbo")
              (PyInt 1714000000)) = inr dom
         ∧ static_text "timestamp" dom = Some "Message sent at 1714000000".
Proof.
  destruct (@stored_timestamp_is_shown Fixture.collaborators
              (Fixture.modal (Some "hi") "gpt-3.5-turbo") Fixture.code_points
              (PyInt 1714000000) eq_refl ltac:(discriminate))
    as (dom & Hc & Ht).
  exists dom. split; [exact Hc|exact Ht].
Defined.

Lemma switchers_of_nodes (l : list Widget) :
  omap is_switcher l = fst <$> omap is_switcher_node l.
Proof.
  induction l as [|w l IH]; [reflexivity|].
  destruct w; cbn; by rewrite ?IH.
Qed.

Lemma no_node_no_assignment dom v cur views :
  query_one is_switcher_node dom = Some (cur, views) →
  assign_current_in v dom ≠ None.
Proof.
  unfold query_one. intros Hq Hin.
  pose proof (assign_current_in_node_all dom v) as H. rewrite Hin in H.
  by rewrite H in Hq.
Qed.

(** X12. On every widget tree: when [tab_activated] returns, the view of
    the first content switcher is the identifier of the activated tab
    and every other content switcher shows what it showed before.  The
    handler raises nothing but [NoMatches], and only on a tree without
    content switcher or for an identifier that names no child of the
    first content switcher. *)
Theorem activation_reaches_first_switcher (dom : list Widget)
    (event : TabActivated) :
  match tab_activated dom event with
  | inr dom' =>
      first_switcher_set (tab_id (tab event))
        (flat_map flatten dom) (flat_map flatten dom')
  | inl e =>
      (e = NoMatches "ContentSwitcher"
       ∧ omap is_switcher (flat_map flatten dom) = [])
      ∨ (∃ cur views i,
           query_one is_switcher_node dom = Some (cur, views)
           ∧ tab_id (tab event) = Some i
           ∧ has_child i views = false
           ∧ e = NoMatches ("#" +:+ i))
  end.
Proof.
  destruct (tab_activated dom event) as [e|dom'] eqn:H.
  - unfold tab_activated in H.
    destruct (query_one is_switcher_node dom) as [[cur views]|] eqn:Hq.
    + pose proof (no_node_no_assignment dom (tab_id (tab event)) _ _ Hq) as Hin.
      case_bool_decide as Hcur.
      * cbn in H. by destruct (assign_current_in (tab_id (tab event)) dom).
      * destruct (watch_current views (tab_id (tab event))) as [e'|[]] eqn:Hw.
        -- injection H as <-. right. unfold watch_current in Hw.
           destruct (tab_id (tab event)) as [i|]; [|discriminate].
           exists cur, views, i. split; [reflexivity|]. split; [reflexivity|].
           destruct (truthy i); [|discriminate].
           destruct (has_child i views); [discriminate|].
           injection Hw as <-. by split.
        -- cbn in H. by destruct (assign_current_in (tab_id (tab event)) dom).
    + injection H as <-. left. split; [reflexivity|].
      unfold query_one in Hq. rewrite switchers_of_nodes.
      by destruct (omap is_switcher_node (flat_map flatten dom)).
  - apply tab_activated_inr in H as (cur & views & _ & _ & Hin).
    pose proof (assign_current_in_first_all dom (tab_id (tab event))) as H.
    by rewrite Hin in H.
Qed.

(** X13. On every widget tree, a run of tab activations that completes
    has the effect of its last activation alone: the tree it leaves is
    the one that handling the last event leaves on the tree as it was at
    first. *)
Theorem activation_run_last_write_wins (events : list TabActivated)
    (final : TabActivated) :
  ∀ dom dom', activate_all dom (events ++ [final]) = inr dom' →
              tab_activated dom final = inr dom'.
Proof.
  induction events as [|event rest IH]; intros dom dom'.
  - cbn [app activate_all]. by destruct (tab_activated dom final).
  - cbn [app activate_all].
    destruct (tab_activated dom event) as [e|dom1] eqn:He; [discriminate|].
    intros Hrun. apply (tab_activated_after dom event dom1 final dom' He).
    by apply IH.
Qed.

Lemma activation_run_last_write_wins_witness :
  tab_activated
    (modal_dom "hi" [104; 105] Fixture.code_points "Message sent at 0"
       "2 tokens" (Some "markdown-content"))
    (activation "metadata")
  = inr (modal_dom "hi" [104; 105] Fixture.code_points "Message sent at 0"
           "2 tokens" (Some "metadata")).
Proof.
  apply (activation_run_last_write_wins [activation "tokens"]
           (activation "metadata")).
  reflexivity.
Defined.

(** X14. A tab activation changes nothing that the modal displays beside
    the view: on every widget tree the text of each [Static], the tab
    strip and the tokens of the token view are the same before and
    after. *)
Theorem activation_keeps_content (dom dom' : list Widget) (event : TabActivated) :
  tab_activated dom event = inr dom' →
  (∀ i, static_text i dom' = static_text i dom)
  ∧ query_one is_tabs dom' = query_one is_tabs dom
  ∧ query_one is_token_analysis dom' = query_one is_token_analysis dom.
Proof.
  intros H. split; [intros i; unfold static_text|split];
    (eapply tab_activated_leaves; [|exact H]); by split.
Qed.

Lemma activation_keeps_content_witness :
  static_text "token-count"
    (modal_dom "hi" [104; 105] Fixture.code_points "Message sent at 0"
       "2 tokens" (Some "tokens"))
  = static_text "token-count"
      (modal_dom "hi" [104; 105] Fixture.code_points "Message sent at 0"
         "2 tokens" (Some "markdown-content")).
Proof.
  apply (activation_keeps_content
           (modal_dom "hi" [104; 105] Fixture.code_points "Message sent at 0"
              "2 tokens" (Some "markdown-content"))
           (modal_dom "hi" [104; 105] Fixture.code_points "Message sent at 0"
              "2 tokens" (Some "tokens"))
           (activation "tokens") eq_refl).
Defined.
